(** * PayNow component documentation MCP server

    A shallow embedding of [src/paynow_component_docs_mcp_server/server.py]:
    the four handlers registered by [serve] ([list_tools], [list_prompts],
    [call_tool], [get_prompt]) and the function
    [search_paynow_component_documentation] they share.

    Python exceptions are modelled by an outcome type, the network and the
    [requests] sessions by an explicit world that every handler threads. *)

From stdpp Require Import base strings list gmap pretty.
From Stdlib Require Import ZArith Lia.

Local Open Scope string_scope.
Local Open Scope Z_scope.

(** ** Python values

    The argument mapping of a handler is [dict[str, Any] | None]; its values
    are what the JSON decoder of the host produces. *)

#[warnings="-register-all"]
Inductive PyVal : Type :=
  | PyNone
  | PyBool (b : bool)
  | PyInt (z : Z)
  | PyFloat (mantissa exponent : Z)
  | PyStr (s : string)
  | PyList (items : list PyVal)
  | PyDict (items : list (string * PyVal)).

(** [dict[str, Any] | None] *)
Abbreviation Arguments := (option (gmap string PyVal)).

(** ** [mcp.types] *)

Module JsonRpc.
(** [mcp.types.INVALID_PARAMS] and [mcp.types.INTERNAL_ERROR], the
    JSON-RPC 2.0 error codes. *)
Definition INVALID_PARAMS : Z := -32602.
Definition INTERNAL_ERROR : Z := -32603.
End JsonRpc.
Export JsonRpc.

Record ErrorData : Type := mkErrorData {
  code : Z;
  message : string
}.

Record TextContent : Type := mkTextContent {
  type_ : string;
  text : string
}.

Record PromptMessage : Type := mkPromptMessage {
  role : string;
  content : TextContent
}.

Record GetPromptResult : Type := mkGetPromptResult {
  gp_description : string;
  messages : list PromptMessage
}.

Record PromptArgument : Type := mkPromptArgument {
  pa_name : string;
  pa_description : string;
  pa_required : bool
}.

Record Prompt : Type := mkPrompt {
  p_name : string;
  p_description : string;
  arguments : list PromptArgument
}.

(** ** [pydantic] models

    What a [BaseModel] subclass declares: its name, its docstring and its
    annotated fields.  [Field(...)] makes a field required. *)

Inductive Annotation : Type :=
  | AnnStr.

Record FieldDecl : Type := mkFieldDecl {
  f_name : string;
  f_annotation : Annotation;
  f_required : bool;
  f_description : string
}.

Record ModelDecl : Type := mkModelDecl {
  m_name : string;
  m_doc : string;
  m_fields : list FieldDecl
}.

(** The JSON schema of a model, as [model_json_schema] lays it out. *)
Record PropertySchema : Type := mkPropertySchema {
  ps_description : string;
  ps_type : string
}.

Record JsonSchema : Type := mkJsonSchema {
  js_description : string;
  js_properties : list (string * PropertySchema);
  js_required : list string;
  js_title : string;
  js_type : string
}.

Record Tool : Type := mkTool {
  t_name : string;
  t_description : string;
  inputSchema : JsonSchema
}.

(** One line of a [pydantic_core.ValidationError]: the kind of error, the
    field it is about, and the offending input. *)
Inductive ErrorType : Type :=
  | Missing
  | StringType.

Record ErrorDetails : Type := mkErrorDetails {
  ed_type : ErrorType;
  ed_loc : string;
  ed_input : PyVal
}.

(** ** Exceptions

    The subclasses of [Exception] that can be raised while a handler runs.
    [ValidationError] is pydantic's and is a [ValueError]; [HTTPError] and
    [InvalidSchema] are raised by [requests] itself, [KeyError] by a
    dictionary subscript; [OtherException] stands
    for whatever else the transport raises ([ConnectionError], [Timeout],
    ...), by class name and argument. *)

Inductive PyExc : Type :=
  | McpError (error : ErrorData)
  | ValidationError (title : string) (errors : list ErrorDetails)
  | HTTPError (msg : string)
  | InvalidSchema (url : string)
  | KeyError (key : string)
  | OtherException (cls : string) (arg : string).

Definition is_McpError (e : PyExc) : bool :=
  match e with McpError _ => true | _ => false end.

Definition is_ValueError (e : PyExc) : bool :=
  match e with ValidationError _ _ => true | _ => false end.

Inductive Outcome (A : Type) : Type :=
  | Returns (a : A)
  | Raises (e : PyExc).
Arguments Returns {A} a.
Arguments Raises {A} e.

(** ** [requests]

    The part of [requests] the server drives: a session is an ordered
    dictionary from URL prefixes to transport adapters, an adapter carries
    its retry budget, and a response carries what [raise_for_status] and
    [text] read. *)

Module Requests.

Definition DEFAULT_RETRIES : Z := 0.

(** [HTTPAdapter(max_retries=n)] *)
Record HTTPAdapter : Type := mkHTTPAdapter {
  max_retries : Z
}.

(** What reaches the transport: the request as [Session.get] was given
    it, and the retry budget of the adapter that sends it. *)
Record Request : Type := mkRequest {
  method : string;
  url : string;
  params : list (string * PyVal);
  timeout : Z;
  retries : Z
}.

(** A response as [session.get] returns it.  It carries no headers, so no
    [Location]: a response that [requests] would follow up by requesting a
    new location is outside this model, and the properties that depend on
    the status exclude the statuses on which that happens. *)
Record Response : Type := mkResponse {
  status_code : Z;
  reason : string;
  r_url : string;
  r_text : string
}.

Record Session : Type := mkSession {
  sid : nat;
  adapters : list (string * HTTPAdapter)
}.

(** [d[k] = v] on an [OrderedDict]: an existing key keeps its place, a
    new key goes last. *)
Fixpoint od_set {V : Type} (k : string) (v : V) (d : list (string * V))
  : list (string * V) :=
  match d with
  | [] => [(k, v)]
  | (k', v') :: d' =>
      if String.eqb k k' then (k, v) :: d' else (k', v') :: od_set k v d'
  end.

(** [Session.mount]: registers the adapter, then moves every shorter
    prefix behind it, so that the dictionary stays sorted by descending
    prefix length. *)
Definition mount (prefix : string) (adapter : HTTPAdapter) (s : Session)
  : Session :=
  let d := od_set prefix adapter (adapters s) in
  let short (kv : string * HTTPAdapter) :=
    Nat.ltb (String.length (fst kv)) (String.length prefix) in
  {| sid := sid s;
     adapters := List.filter (fun kv => negb (short kv)) d
                 ++ List.filter short d |}.

(** [str.lower] on the ASCII letters. *)
Definition lower_ascii (c : Ascii.ascii) : Ascii.ascii :=
  let n := Ascii.nat_of_ascii c in
  if (Nat.leb 65 n && Nat.leb n 90)%bool
  then Ascii.ascii_of_nat (n + 32)%nat else c.

Fixpoint lower (s : string) : string :=
  match s with
  | EmptyString => EmptyString
  | String c s' => String (lower_ascii c) (lower s')
  end.

(** [Session.get_adapter]: the first mounted prefix the URL starts with;
    [None] is where [requests] raises [InvalidSchema]. *)
Fixpoint get_adapter (ads : list (string * HTTPAdapter)) (u : string)
  : option HTTPAdapter :=
  match ads with
  | [] => None
  | (prefix, adapter) :: rest =>
      if String.prefix (lower prefix) (lower u) then Some adapter
      else get_adapter rest u
  end.

(** What the transport answers to a request: a response, or an
    exception ([ConnectionError], [Timeout], ...). *)
Inductive Reply : Type :=
  | Answer (r : Response)
  | Failure (e : PyExc).

End Requests.
Export Requests.

(** ** The world a handler runs in

    What a handler does besides computing its result: it constructs
    [requests] sessions and sends requests through them.  The trace records
    both, oldest first. *)

Inductive Event : Type :=
  | NewSession (id : nat)
  | Send (id : nat) (req : Request).

Definition is_Send (ev : Event) : bool :=
  match ev with Send _ _ => true | NewSession _ => false end.

Definition is_NewSession (ev : Event) : bool :=
  match ev with NewSession _ => true | Send _ _ => false end.

Record World (Net : Type) : Type := mkWorld {
  net : Net;
  sessions : nat;
  trace : list Event
}.
Arguments mkWorld {Net} net sessions trace.
Arguments net {Net} w.
Arguments sessions {Net} w.
Arguments trace {Net} w.

(** A computation that may raise and may act on the world. *)
Definition M (Net A : Type) : Type := World Net -> Outcome A * World Net.

Section Monad.
Context {Net : Type}.

Definition ret {A : Type} (a : A) : M Net A := fun w => (Returns a, w).

Definition raise {A : Type} (e : PyExc) : M Net A := fun w => (Raises e, w).

Definition bind {A B : Type} (m : M Net A) (k : A -> M Net B) : M Net B :=
  fun w =>
    match m w with
    | (Returns a, w') => k a w'
    | (Raises e, w') => (Raises e, w')
    end.

(** [try: x = body / except C as e: handler(e)], followed by the rest of
    the function, [rest x].  An exception outside [C] propagates. *)
Definition try_except {A B : Type} (body : M Net A) (catches : PyExc -> bool)
    (handler : PyExc -> M Net B) (rest : A -> M Net B) : M Net B :=
  fun w =>
    match body w with
    | (Returns a, w') => rest a w'
    | (Raises e, w') => if catches e then handler e w' else (Raises e, w')
    end.
End Monad.

Notation "'let*' x ':=' m 'in' k" := (bind m (fun x => k))
  (at level 10, x name, m at level 100, k at level 200).

(** [except Exception] *)
Definition is_Exception (e : PyExc) : bool := true.

(** ** The server *)

Definition PAYNOW_COMPONENT_DOCS_MCP_SERVER_API : string :=
  "https://mcp.owlting.com/paynow-component-docs/get-paynow-component-documentation".

(** [class SearchArgs(BaseModel)] *)
Record SearchArgs : Type := mkSearchArgs {
  query : string
}.

Definition SearchArgs_decl : ModelDecl :=
  {| m_name := "SearchArgs";
     m_doc := "Parameters for searching PayNow Component documentation.";
     m_fields :=
       [ {| f_name := "query";
            f_annotation := AnnStr;
            f_required := true;
            f_description := "Search keywords in English. Any non-English input will be auto-translated to English before populating this field." |} ] |}.

Definition json_type (a : Annotation) : string :=
  match a with
  | AnnStr => "string"
  end.

(** [BaseModel.model_json_schema]: one property per field, the required
    fields listed by name. *)
Definition model_json_schema (d : ModelDecl) : JsonSchema :=
  {| js_description := m_doc d;
     js_properties :=
       map (fun f => (f_name f,
                      {| ps_description := f_description f;
                         ps_type := json_type (f_annotation f) |}))
           (m_fields d);
     js_required := map f_name (List.filter f_required (m_fields d));
     js_title := m_name d;
     js_type := "object" |}.

Section Server.

(** The state of everything beyond the process, and the transport that
    answers a request from it. *)
Variable Net : Type.
Variable transport : Net -> Request -> Reply * Net.

(** [str(e)] and [repr(e)] on exceptions. *)
Variable py_str : PyExc -> string.
Variable py_repr : PyExc -> string.

Local Abbreviation World := (World Net).
Local Abbreviation M := (M Net).

(** [requests.Session()]: a fresh session with the two default adapters
    mounted. *)
Definition Session_new : M Session :=
  fun w =>
    let s0 := {| sid := sessions w; adapters := [] |} in
    let s1 := mount "https://" (mkHTTPAdapter DEFAULT_RETRIES) s0 in
    let s2 := mount "http://" (mkHTTPAdapter DEFAULT_RETRIES) s1 in
    (Returns s2,
     {| net := net w;
        sessions := S (sessions w);
        trace := trace w ++ [NewSession (sessions w)] |}).

(** [session.get(url, params=..., timeout=...)]: the adapter mounted for
    the URL sends the request, with its own retry budget, and the answer
    of the transport is what the call returns or raises.  (Redirects are
    not followed here: see [Response].) *)
Definition Session_get (s : Session) (u : string)
    (ps : list (string * PyVal)) (tmo : Z) : M Response :=
  fun w =>
    match get_adapter (adapters s) u with
    | None => (Raises (InvalidSchema u), w)
    | Some a =>
        let req := {| method := "GET"; url := u; params := ps;
                      timeout := tmo; retries := max_retries a |} in
        let (reply, n') := transport (net w) req in
        let w' := {| net := n';
                     sessions := sessions w;
                     trace := trace w ++ [Send (sid s) req] |} in
        match reply with
        | Answer r => (Returns r, w')
        | Failure e => (Raises e, w')
        end
    end.

(** [Response.raise_for_status]: the message is empty unless the status
    is a client or a server error, and a non-empty message is raised. *)
Definition http_error_msg (r : Response) : string :=
  if (400 <=? status_code r) && (status_code r <? 500) then
    pretty (status_code r) ++ " Client Error: " ++ reason r
      ++ " for url: " ++ r_url r
  else if (500 <=? status_code r) && (status_code r <? 600) then
    pretty (status_code r) ++ " Server Error: " ++ reason r
      ++ " for url: " ++ r_url r
  else "".

Definition raise_for_status (r : Response) : M unit :=
  if String.eqb (http_error_msg r) "" then ret tt
  else raise (HTTPError (http_error_msg r)).

(** The constructor of [SearchArgs], applied to the entries of a
    dictionary as keyword arguments: [query] is required and must be a
    string; other keys are ignored. *)
Definition SearchArgs_init (kwargs : gmap string PyVal) : M SearchArgs :=
  match kwargs !! "query" with
  | Some (PyStr s) => ret {| query := s |}
  | Some v =>
      raise (ValidationError "SearchArgs"
               [ {| ed_type := StringType; ed_loc := "query";
                    ed_input := v |} ])
  | None =>
      raise (ValidationError "SearchArgs"
               [ {| ed_type := Missing; ed_loc := "query";
                    ed_input := PyDict (map_to_list kwargs) |} ])
  end.

Definition search_paynow_component_documentation (query : PyVal) : M string :=
  try_except
    (let* session := Session_new in
     let session := mount "http://" (mkHTTPAdapter 3) session in
     let* resp := Session_get session PAYNOW_COMPONENT_DOCS_MCP_SERVER_API
                    [("query", query); ("lang", PyStr "en")] 30 in
     let* _ := raise_for_status resp in
     ret (r_text resp))
    is_Exception
    (fun e =>
       raise (McpError
                {| code := INTERNAL_ERROR;
                   message := "Failed to search documentation: "
                              ++ py_repr e |}))
    ret.

Definition list_tools : M (list Tool) :=
  ret [ {| t_name := "search_paynow_component_documentation";
           t_description := "Search PayNow Component documentation. Any non-English input will be auto-translated to English before populating the query.";
           inputSchema := model_json_schema SearchArgs_decl |} ].

Definition list_prompts : M (list Prompt) :=
  ret [ {| p_name := "search_paynow_component_documentation";
           p_description := "Search PayNow Component documentation and return matching sections";
           arguments :=
             [ {| pa_name := "query";
                  pa_description := "Search query in English. Any non-English input will be auto-translated to English before filling this argument.";
                  pa_required := true |} ] |} ].

(** [arguments or {}] *)
Definition or_empty (arguments : Arguments) : gmap string PyVal :=
  default ∅ arguments.

Definition call_tool (name : string) (arguments : Arguments)
  : M (list TextContent) :=
  try_except
    (SearchArgs_init (or_empty arguments))
    is_ValueError
    (fun e => raise (McpError {| code := INVALID_PARAMS;
                                 message := py_str e |}))
    (fun args =>
       let* result := search_paynow_component_documentation
                        (PyStr (query args)) in
       ret [ {| type_ := "text"; text := result |} ]).

(** [not arguments]: [None] and the empty dictionary are falsy. *)
Definition not_ (arguments : Arguments) : bool :=
  match arguments with
  | None => true
  | Some d => bool_decide (d = ∅)
  end.

(** ["query" not in arguments] *)
Definition not_in (key : string) (d : gmap string PyVal) : bool :=
  bool_decide (d !! key = None).

(** [arguments[key]] *)
Definition getitem (d : gmap string PyVal) (key : string) : M PyVal :=
  match d !! key with
  | Some v => ret v
  | None => raise (KeyError key)
  end.

(** [None] is falsy, so the first disjunct of the guard already decides
    for it; the membership test is evaluated on a dictionary only. *)
Definition get_prompt (name : string) (arguments : Arguments)
  : M GetPromptResult :=
  match arguments with
  | None =>
      raise (McpError {| code := INVALID_PARAMS;
                         message := "Query is required" |})
  | Some d =>
      if not_ arguments || not_in "query" d then
        raise (McpError {| code := INVALID_PARAMS;
                           message := "Query is required" |})
      else
        try_except
          (let* q := getitem d "query" in
           search_paynow_component_documentation q)
          is_McpError
          (fun e =>
             ret {| gp_description := "Search failed";
                    messages :=
                      [ {| role := "user";
                           content := {| type_ := "text";
                                         text := py_str e |} |} ] |})
          (fun result =>
             ret {| gp_description := "Search results";
                    messages :=
                      [ {| role := "user";
                           content := {| type_ := "text";
                                         text := result |} |} ] |})
  end.

End Server.

Arguments Session_new {Net} w.
Arguments Session_get {Net} transport s u ps tmo w.
Arguments raise_for_status {Net} r w.
Arguments SearchArgs_init {Net} kwargs w.
Arguments search_paynow_component_documentation {Net} transport py_repr query w.
Arguments list_tools {Net} w.
Arguments list_prompts {Net} w.
Arguments call_tool {Net} transport py_str py_repr name arguments w.
Arguments get_prompt {Net} transport py_str py_repr name arguments w.

(** ** Vocabulary of the properties *)

(** The request [search_paynow_component_documentation] hands to the
    transport for a query. *)
Definition search_request (q : PyVal) : Request :=
  {| method := "GET";
     url := PAYNOW_COMPONENT_DOCS_MCP_SERVER_API;
     params := [("query", q); ("lang", PyStr "en")];
     timeout := 30;
     retries := DEFAULT_RETRIES |}.

(** The remote call fails with [e]: the transport raised [e] (no
    connection, timeout, anything else), or it answered with a client or
    server error status, which [raise_for_status] turns into an
    [HTTPError]. *)
Inductive fails : Reply -> PyExc -> Prop :=
  | fails_transport (e : PyExc) :
      fails (Failure e) e
  | fails_status (r : Response) :
      400 <= status_code r < 600 ->
      fails (Answer r) (HTTPError (http_error_msg r)).

(** The error [search_paynow_component_documentation] wraps a failure in. *)
Definition internal_error (py_repr : PyExc -> string) (e : PyExc) : PyExc :=
  McpError {| code := INTERNAL_ERROR;
              message := "Failed to search documentation: " ++ py_repr e |}.

(** What [search_paynow_component_documentation] makes of the reply of
    the transport, and the world it leaves. *)
Definition search_outcome (py_repr : PyExc -> string) (reply : Reply)
  : Outcome string :=
  match reply with
  | Failure e => Raises (internal_error py_repr e)
  | Answer r =>
      if (400 <=? status_code r) && (status_code r <? 600)
      then Raises (internal_error py_repr (HTTPError (http_error_msg r)))
      else Returns (r_text r)
  end.

Definition search_world {Net : Type}
    (transport : Net -> Request -> Reply * Net) (q : PyVal) (w : World Net)
  : World Net :=
  {| net := snd (transport (net w) (search_request q));
     sessions := S (sessions w);
     trace := trace w ++ [NewSession (sessions w);
                          Send (sessions w) (search_request q)] |}.

(** The value of the argument mapping under a key, if any. *)
Definition lookup_arg (key : string) (arguments : Arguments) : option PyVal :=
  match arguments with
  | Some d => d !! key
  | None => None
  end.

(** The events a computation adds to the trace of a world. *)
Definition new_events {Net A : Type} (m : M Net A) (w : World Net)
  : list Event :=
  drop (length (trace w)) (trace (snd (m w))).

(** The computation sends a request from this world. *)
Definition sends_request {Net A : Type} (m : M Net A) (w : World Net)
  : bool :=
  existsb is_Send (new_events m w).

(** A remote service is deterministic when its answer depends on the
    request alone, not on what happened before. *)
Definition deterministic {Net : Type}
    (transport : Net -> Request -> Reply * Net) : Prop :=
  forall (n1 n2 : Net) (req : Request),
    fst (transport n1 req) = fst (transport n2 req).

(** [requests.models.REDIRECT_STATI]: the statuses on which [requests],
    when the response has a [Location] header, goes on to request the new
    location instead of returning the response. *)
Definition is_redirect_status (z : Z) : bool :=
  (z =? 301) || (z =? 302) || (z =? 303) || (z =? 307) || (z =? 308).

(** A reply that [session.get] hands back as it is: an exception, or a
    response whose status is not one of the redirect statuses. *)
Definition final_reply (reply : Reply) : Prop :=
  match reply with
  | Answer r => is_redirect_status (status_code r) = false
  | Failure _ => True
  end.

(** A remote service that never answers with a redirect status. *)
Definition no_redirects {Net : Type}
    (transport : Net -> Request -> Reply * Net) : Prop :=
  forall (n : Net) (req : Request), final_reply (fst (transport n req)).

(** ** A sample world

    A remote service that counts the requests it has served and answers by
    the query alone, and a rendering of exceptions. *)

Module Sample.

Definition ok (req : Request) (body : string) : Response :=
  {| status_code := 200; reason := "OK"; r_url := url req;
     r_text := body |}.

Definition transport (n : nat) (req : Request) : Reply * nat :=
  (match params req with
   | (_, PyStr q) :: _ =>
       if String.eqb q "x" then
         Failure (OtherException "ConnectTimeout" "timed out")
       else if String.eqb q "boom" then
         Answer {| status_code := 500; reason := "Internal Server Error";
                   r_url := url req; r_text := "oops" |}
       else Answer (ok req "Refund policy: ...")
   | _ =>
       Answer {| status_code := 404; reason := "Not Found";
                 r_url := url req; r_text := "" |}
   end, S n).

Definition str (e : PyExc) : string :=
  match e with
  | McpError err => message err
  | ValidationError t _ => "1 validation error for " ++ t
  | HTTPError m => m
  | InvalidSchema u => "No connection adapters were found for " ++ u
  | KeyError k => k
  | OtherException _ a => a
  end.

Definition repr (e : PyExc) : string :=
  match e with
  | McpError err => "McpError('" ++ message err ++ "')"
  | ValidationError t _ => "ValidationError('" ++ t ++ "')"
  | HTTPError m => "HTTPError('" ++ m ++ "')"
  | InvalidSchema u => "InvalidSchema('" ++ u ++ "')"
  | KeyError k => "KeyError('" ++ k ++ "')"
  | OtherException c a => c ++ "('" ++ a ++ "')"
  end.

(** A second service: a server error for "boom", "not modified" for
    "docs", no connection otherwise.  The responses report the URL with
    its query string. *)
Definition service (n : nat) (req : Request) : Reply * nat :=
  (match params req with
   | (_, PyStr q) :: _ =>
       if String.eqb q "boom" then
         Answer {| status_code := 500; reason := "Internal Server Error";
                   r_url := url req ++ "?query=boom&lang=en";
                   r_text := "oops" |}
       else if String.eqb q "docs" then
         Answer {| status_code := 304; reason := "Not Modified";
                   r_url := url req ++ "?query=docs&lang=en";
                   r_text := "" |}
       else Failure (OtherException "ConnectionError" "no route to host")
   | _ => Failure (OtherException "ConnectionError" "no route to host")
   end, S n).

(** The world at process start. *)
Definition start : World nat := mkWorld 0%nat 0%nat [].

Definition tool := call_tool transport str repr.
Definition prompt := get_prompt transport str repr.
Definition search := search_paynow_component_documentation transport repr.

End Sample.

(** The argument mappings and the response the sample runs use. *)

Module Runs.

Definition tool_name : string := "search_paynow_component_documentation".

Definition refund : Arguments := Some {["query" := PyStr "refund policy"]}.
Definition empty_query : Arguments := Some {["query" := PyStr ""]}.
Definition boom : Arguments := Some {["query" := PyStr "boom"]}.
Definition unreachable : gmap string PyVal := {["query" := PyStr "x"]}.
Definition int_query : Arguments := Some {["query" := PyInt 3]}.
Definition docs : Arguments := Some {["query" := PyStr "docs"]}.

Definition not_modified : Response :=
  {| status_code := 304; reason := "Not Modified";
     r_url := PAYNOW_COMPONENT_DOCS_MCP_SERVER_API ++ "?query=docs&lang=en";
     r_text := "" |}.

Definition boom_error : Response :=
  {| status_code := 500; reason := "Internal Server Error";
     r_url := PAYNOW_COMPONENT_DOCS_MCP_SERVER_API ++ "?query=boom&lang=en";
     r_text := "oops" |}.

End Runs.

(** ** The handlers as the host invokes them

    [serve] registers the four handlers and hands control to the host,
    which invokes them one request after another.  No handler has a
    suspension point, so an invocation runs to its end before the next one
    starts; what an invocation leaves behind is the world. *)

Inductive Call : Type :=
  | ListTools
  | ListPrompts
  | CallTool (name : string) (arguments : Arguments)
  | GetPrompt (name : string) (arguments : Arguments).

Section Dispatch.
Context {Net : Type}.
Variable transport : Net -> Request -> Reply * Net.
Variable py_str : PyExc -> string.
Variable py_repr : PyExc -> string.

Definition invoke (c : Call) (w : World Net) : World Net :=
  match c with
  | ListTools => snd (list_tools w)
  | ListPrompts => snd (list_prompts w)
  | CallTool name arguments =>
      snd (call_tool transport py_str py_repr name arguments w)
  | GetPrompt name arguments =>
      snd (get_prompt transport py_str py_repr name arguments w)
  end.

Definition run (cs : list Call) (w : World Net) : World Net :=
  fold_left (fun w c => invoke c w) cs w.
End Dispatch.

(** The world at process start: nothing constructed, nothing sent. *)
Definition process_start {Net : Type} (n : Net) : World Net :=
  mkWorld n 0%nat [].

(** The request an invocation gives rise to, read off its arguments: the
    tool handler asks for a string under [query], the prompt handler for
    any value under [query]; the listings send nothing. *)
Definition call_request (c : Call) : option Request :=
  match c with
  | ListTools | ListPrompts => None
  | CallTool _ arguments =>
      match lookup_arg "query" arguments with
      | Some (PyStr s) => Some (search_request (PyStr s))
      | _ => None
      end
  | GetPrompt _ arguments =>
      match lookup_arg "query" arguments with
      | Some v => Some (search_request v)
      | None => None
      end
  end.

(** The trace of requests sent one per session, sessions numbered from
    [i]. *)
Fixpoint session_log (i : nat) (reqs : list Request) : list Event :=
  match reqs with
  | [] => []
  | req :: reqs' => NewSession i :: Send i req :: session_log (S i) reqs'
  end.

Definition event_session (ev : Event) : nat :=
  match ev with
  | NewSession i => i
  | Send i _ => i
  end.

Definition is_PyStr (v : PyVal) : bool :=
  match v with PyStr _ => true | _ => false end.

(** The one message of a prompt result. *)
Definition user_text (t : string) : PromptMessage :=
  {| role := "user"; content := {| type_ := "text"; text := t |} |}.

(** A sequence of invocations for the sample runs. *)
Module Calls.
Definition mixed : list Call :=
  [ ListTools;
    CallTool Runs.tool_name Runs.int_query;
    GetPrompt Runs.tool_name Runs.int_query;
    CallTool Runs.tool_name Runs.boom;
    ListPrompts;
    GetPrompt Runs.tool_name None;
    CallTool Runs.tool_name Runs.refund ].
End Calls.

(** ** Properties *)

Section Properties.

Context {Net : Type}.
Variable transport : Net -> Request -> Reply * Net.
Variable py_str : PyExc -> string.
Variable py_repr : PyExc -> string.

Local Abbreviation search :=
  (search_paynow_component_documentation transport py_repr).
Local Abbreviation tool := (call_tool transport py_str py_repr).
Local Abbreviation prompt := (get_prompt transport py_str py_repr).

(** The adapter a fresh session, with the retrying adapter mounted on
    the plain-HTTP prefix, selects for the URL of the service. *)
Lemma session_adapter (n : nat) :
  get_adapter
    (adapters
       (mount "http://" (mkHTTPAdapter 3)
          (mount "http://" (mkHTTPAdapter DEFAULT_RETRIES)
             (mount "https://" (mkHTTPAdapter DEFAULT_RETRIES)
                {| sid := n; adapters := [] |}))))
    PAYNOW_COMPONENT_DOCS_MCP_SERVER_API
  = Some (mkHTTPAdapter DEFAULT_RETRIES).
Proof. reflexivity. Qed.

Lemma append_nonempty (s : string) (c : Ascii.ascii) (t u : string) :
  String.eqb (s ++ String c t ++ u) "" = false.
Proof. destruct s; reflexivity. Qed.

Lemma http_error_msg_empty (r : Response) :
  String.eqb (http_error_msg r) ""
  = negb ((400 <=? status_code r) && (status_code r <? 600)).
Proof.
  unfold http_error_msg.
  destruct (400 <=? status_code r) eqn:Hlo; simpl.
  - destruct (status_code r <? 500) eqn:H5; simpl.
    + rewrite append_nonempty.
      assert ((status_code r <? 600) = true) as -> by lia. reflexivity.
    + assert ((500 <=? status_code r) = true) as -> by lia. simpl.
      destruct (status_code r <? 600); simpl; [apply append_nonempty | reflexivity].
  - assert ((500 <=? status_code r) = false) as -> by lia. reflexivity.
Qed.

(** One run of the search function, whatever the query and the world. *)
Lemma search_run (q : PyVal) (w : World Net) :
  search q w
  = (search_outcome py_repr (fst (transport (net w) (search_request q))),
     search_world transport q w).
Proof.
  unfold search_paynow_component_documentation, try_except, bind,
    Session_new, Session_get.
  cbv zeta. rewrite session_adapter.
  cbn [net sessions trace sid mount max_retries].
  change (mkRequest "GET" PAYNOW_COMPONENT_DOCS_MCP_SERVER_API
            [("query", q); ("lang", PyStr "en")] 30 DEFAULT_RETRIES)
    with (search_request q).
  unfold search_world.
  destruct (transport (net w) (search_request q)) as [[r | e] n'];
    cbn [fst snd search_outcome is_Exception].
  - unfold raise_for_status. rewrite http_error_msg_empty.
    destruct ((400 <=? status_code r) && (status_code r <? 600));
      cbn [negb raise ret is_Exception]; rewrite <- app_assoc; reflexivity.
  - unfold raise. rewrite <- app_assoc. reflexivity.
Qed.

Lemma new_events_app {A : Type} (m : M Net A) (w : World Net)
    (evs : list Event) :
  trace (snd (m w)) = (trace w ++ evs)%list -> new_events m w = evs.
Proof. unfold new_events. intros ->. apply drop_app_length. Qed.

Lemma search_events (q : PyVal) (w : World Net) :
  new_events (search q) w
  = [NewSession (sessions w); Send (sessions w) (search_request q)].
Proof. apply new_events_app. rewrite search_run. reflexivity. Qed.

Lemma or_empty_lookup (key : string) (arguments : Arguments) :
  or_empty arguments !! key = lookup_arg key arguments.
Proof. destruct arguments; [reflexivity | apply lookup_empty]. Qed.

(** The tool handler on a mapping whose [query] is a string. *)
Lemma call_tool_valid (name : string) (arguments : Arguments) (s : string)
    (w : World Net) :
  lookup_arg "query" arguments = Some (PyStr s) ->
  tool name arguments w
  = (let* result := search (PyStr s) in
     ret [ {| type_ := "text"; text := result |} ]) w.
Proof.
  intros Hq. unfold call_tool, try_except, SearchArgs_init.
  rewrite or_empty_lookup, Hq. reflexivity.
Qed.

Lemma call_tool_valid_outcome (name : string) (arguments : Arguments)
    (s : string) (w : World Net) :
  lookup_arg "query" arguments = Some (PyStr s) ->
  tool name arguments w
  = (match search_outcome py_repr
             (fst (transport (net w) (search_request (PyStr s)))) with
     | Returns result => Returns [ {| type_ := "text"; text := result |} ]
     | Raises e => Raises e
     end,
     search_world transport (PyStr s) w).
Proof.
  intros Hq. rewrite (call_tool_valid _ _ _ _ Hq).
  unfold bind. rewrite search_run.
  destruct (search_outcome _ _); reflexivity.
Qed.

(** C1 (as amended): the tool handler proceeds to the remote call exactly
    when the argument mapping binds [query] to a string, the empty string
    included: it then runs the search on that string, constructing a
    session and sending one request.  In every other case it raises an
    InvalidParameters error whose message is the text of the validation
    error, and the world is left as it was. *)
Theorem call_tool_validation (name : string) (arguments : Arguments)
    (w : World Net) :
  match lookup_arg "query" arguments with
  | Some (PyStr s) =>
      tool name arguments w
      = (let* result := search (PyStr s) in
         ret [ {| type_ := "text"; text := result |} ]) w
      /\ new_events (tool name arguments) w
         = [NewSession (sessions w);
            Send (sessions w) (search_request (PyStr s))]
  | _ =>
      exists e : PyExc,
        SearchArgs_init (or_empty arguments) w = (Raises e, w)
        /\ is_ValueError e = true
        /\ tool name arguments w
           = (Raises (McpError {| code := INVALID_PARAMS;
                                  message := py_str e |}), w)
        /\ sends_request (tool name arguments) w = false
  end.
Proof.
  destruct (lookup_arg "query" arguments) as [v |] eqn:Hq.
  - destruct v;
      try (unfold sends_request, new_events, call_tool, try_except,
             SearchArgs_init;
           rewrite or_empty_lookup, Hq; eexists; cbn;
           rewrite drop_all; repeat split; reflexivity).
    split; [apply call_tool_valid; exact Hq |].
    apply new_events_app. rewrite (call_tool_valid_outcome _ _ _ _ Hq).
    reflexivity.
  - unfold sends_request, new_events, call_tool, try_except,
      SearchArgs_init.
    rewrite or_empty_lookup, Hq. eexists. cbn.
    rewrite drop_all. repeat split; reflexivity.
Qed.

(** C3 (as amended): when the remote call raises (no connection, timeout,
    any other exception of the transport) or answers with a client or
    server error status, 400 to 599, the tool handler raises an error with
    the Internal code whose message ends with the representation of that
    failure; the code is the same for every failure. *)
Theorem call_tool_remote_failure (name : string) (arguments : Arguments)
    (q : string) (w : World Net) (e : PyExc) :
  lookup_arg "query" arguments = Some (PyStr q) ->
  fails (fst (transport (net w) (search_request (PyStr q)))) e ->
  fst (tool name arguments w)
  = Raises (McpError
              {| code := INTERNAL_ERROR;
                 message := "Failed to search documentation: "
                            ++ py_repr e |}).
Proof.
  intros Hq Hfail. rewrite (call_tool_valid_outcome _ _ _ _ Hq).
  cbn [fst]. inversion Hfail as [e' He' | r Hr Hr'].
  - reflexivity.
  - cbn [search_outcome].
    assert (((400 <=? status_code r) && (status_code r <? 600)) = true)
      as -> by lia.
    reflexivity.
Qed.

(** A status outside 400..599 is no failure for the search function,
    whatever it is: the body is returned. *)
Lemma search_returns_body (q : PyVal) (w : World Net) (r : Response) :
  fst (transport (net w) (search_request q)) = Answer r ->
  ~ 400 <= status_code r < 600 ->
  fst (search q w) = Returns (r_text r).
Proof.
  intros Hr Hs. rewrite search_run. cbn [fst]. rewrite Hr.
  cbn [search_outcome].
  assert (((400 <=? status_code r) && (status_code r <? 600)) = false)
    as -> by lia.
  reflexivity.
Qed.

(** C5: on a mapping whose [query] is a string, when the remote service
    answers with a success status and body [B], the tool handler returns
    a list of exactly one text item whose text is [B]. *)
Theorem call_tool_success (name : string) (arguments : Arguments)
    (q : string) (w : World Net) (r : Response) :
  lookup_arg "query" arguments = Some (PyStr q) ->
  fst (transport (net w) (search_request (PyStr q))) = Answer r ->
  200 <= status_code r < 300 ->
  fst (tool name arguments w)
  = Returns [ {| type_ := "text"; text := r_text r |} ].
Proof.
  intros Hq Hr Hs. rewrite (call_tool_valid_outcome _ _ _ _ Hq).
  cbn [fst]. rewrite Hr. cbn [search_outcome].
  assert (((400 <=? status_code r) && (status_code r <? 600)) = false)
    as -> by lia.
  reflexivity.
Qed.

(** The search function raises nothing but the protocol error. *)
Lemma search_raises_McpError (q : PyVal) (w w' : World Net) (e : PyExc) :
  search q w = (Raises e, w') -> is_McpError e = true.
Proof.
  rewrite search_run. intros H. injection H as H _. revert H.
  unfold search_outcome, internal_error.
  destruct (fst (transport (net w) (search_request q))) as [r | e0].
  - destruct ((400 <=? status_code r) && (status_code r <? 600));
      [intros [= <-]; reflexivity | discriminate].
  - intros [= <-]. reflexivity.
Qed.

(** The prompt handler on a mapping that binds [query]. *)
Lemma get_prompt_present (name : string) (arguments : Arguments)
    (v : PyVal) (w : World Net) :
  lookup_arg "query" arguments = Some v ->
  prompt name arguments w
  = try_except (search v) is_McpError
      (fun e =>
         ret {| gp_description := "Search failed";
                messages :=
                  [ {| role := "user";
                       content := {| type_ := "text";
                                     text := py_str e |} |} ] |})
      (fun result =>
         ret {| gp_description := "Search results";
                messages :=
                  [ {| role := "user";
                       content := {| type_ := "text";
                                     text := result |} |} ] |}) w.
Proof.
  destruct arguments as [d |]; [| discriminate].
  cbn [lookup_arg]. intros Hq. unfold get_prompt, not_, not_in.
  rewrite bool_decide_eq_false_2
    by (intros ->; rewrite lookup_empty in Hq; discriminate).
  rewrite bool_decide_eq_false_2 by (rewrite Hq; discriminate).
  cbn [orb]. unfold try_except, bind, getitem. rewrite Hq. reflexivity.
Qed.

Lemma get_prompt_absent (name : string) (arguments : Arguments)
    (w : World Net) :
  lookup_arg "query" arguments = None ->
  prompt name arguments w
  = (Raises (McpError {| code := INVALID_PARAMS;
                         message := "Query is required" |}), w).
Proof.
  destruct arguments as [d |]; [| reflexivity].
  cbn [lookup_arg]. intros Hq. unfold get_prompt, not_in.
  rewrite (bool_decide_eq_true_2 _ Hq), orb_true_r. reflexivity.
Qed.

(** C2: on a mapping that binds [query], when the search function raises,
    the prompt handler does not raise: it returns a result described as
    "Search failed" whose single message carries [str] of the error. *)
Theorem get_prompt_remote_failure (name : string) (d : gmap string PyVal)
    (v : PyVal) (w w' : World Net) (e : PyExc) :
  d !! "query" = Some v ->
  search v w = (Raises e, w') ->
  prompt name (Some d) w
  = (Returns {| gp_description := "Search failed";
                messages :=
                  [ {| role := "user";
                       content := {| type_ := "text";
                                     text := py_str e |} |} ] |}, w').
Proof.
  intros Hq Hraise. rewrite (get_prompt_present name (Some d) v w Hq).
  unfold try_except. rewrite Hraise.
  rewrite (search_raises_McpError _ _ _ _ Hraise). reflexivity.
Qed.

(** C4: the prompt handler raises the InvalidParameters error "Query is
    required" exactly when the mapping has no key [query]; when the key
    is there, whatever its value, the handler passes that value to the
    search function unexamined, a request carrying it is sent, and the
    handler returns. *)
Theorem get_prompt_presence_check (name : string) (arguments : Arguments)
    (w : World Net) :
  (fst (prompt name arguments w)
   = Raises (McpError {| code := INVALID_PARAMS;
                         message := "Query is required" |})
   <-> lookup_arg "query" arguments = None)
  /\ match lookup_arg "query" arguments with
     | None => sends_request (prompt name arguments) w = false
     | Some v =>
         prompt name arguments w
         = try_except (search v) is_McpError
             (fun e =>
                ret {| gp_description := "Search failed";
                       messages :=
                         [ {| role := "user";
                              content := {| type_ := "text";
                                            text := py_str e |} |} ] |})
             (fun result =>
                ret {| gp_description := "Search results";
                       messages :=
                         [ {| role := "user";
                              content := {| type_ := "text";
                                            text := result |} |} ] |}) w
         /\ new_events (prompt name arguments) w
            = [NewSession (sessions w);
               Send (sessions w) (search_request v)]
         /\ exists result, fst (prompt name arguments w) = Returns result
     end.
Proof.
  destruct (lookup_arg "query" arguments) as [v |] eqn:Hq.
  - pose proof (get_prompt_present name arguments v w Hq) as Hrun.
    assert (exists result,
               prompt name arguments w
               = (Returns result, search_world transport v w))
      as [result Hres].
    { rewrite Hrun. unfold try_except. rewrite search_run.
      destruct (search_outcome _ _) as [a | e] eqn:Ho.
      - eexists. reflexivity.
      - assert (is_McpError e = true) as ->.
        { eapply search_raises_McpError. rewrite search_run, Ho.
          reflexivity. }
        eexists. reflexivity. }
    split; [| split; [exact Hrun | split]].
    + rewrite Hres. cbn [fst]. split; discriminate.
    + apply new_events_app. rewrite Hres. reflexivity.
    + exists result. rewrite Hres. reflexivity.
  - rewrite (get_prompt_absent name arguments w Hq). split.
    + split; reflexivity.
    + unfold sends_request, new_events.
      rewrite (get_prompt_absent name arguments w Hq). cbn [snd].
      rewrite drop_all. reflexivity.
Qed.

(** C6: the search function constructs a session and issues exactly one
    GET against the fixed URL, with parameters [query] and [lang=en] and
    a timeout of 30.  The adapter that retries three times is mounted
    under a prefix the URL does not start with, so the request goes out
    through the default adapter of the session, whose retry budget is
    zero. *)
Theorem search_request_retry_budget (q : PyVal) (w : World Net) :
  new_events (search q) w
  = [NewSession (sessions w);
     Send (sessions w)
       {| method := "GET";
          url := "https://mcp.owlting.com/paynow-component-docs/get-paynow-component-documentation";
          params := [("query", q); ("lang", PyStr "en")];
          timeout := 30;
          retries := 0 |}]
  /\ get_adapter [("http://", mkHTTPAdapter 3)]
       PAYNOW_COMPONENT_DOCS_MCP_SERVER_API = None.
Proof. split; [apply search_events | reflexivity]. Qed.

(** C7 (as amended): every run of the search function constructs a
    session of its own and sends its request through it; of two runs in
    a row, the second uses a new session, not the one of the first. *)
Theorem search_fresh_session (q1 q2 : PyVal) (w : World Net) :
  let w1 := snd (search q1 w) in
  new_events (search q1) w
  = [NewSession (sessions w); Send (sessions w) (search_request q1)]
  /\ sessions w1 = S (sessions w)
  /\ new_events (search q2) w1
     = [NewSession (S (sessions w));
        Send (S (sessions w)) (search_request q2)].
Proof.
  cbv zeta. rewrite !search_events, search_run. repeat split.
Qed.

(** C8: listing the tools never fails and changes nothing: it returns
    exactly one descriptor, named [search_paynow_component_documentation],
    whose input schema has the single property [query], of type string,
    listed as required. *)
Theorem list_tools_descriptor (w : World Net) :
  exists t : Tool,
    list_tools w = (Returns [t], w)
    /\ t_name t = "search_paynow_component_documentation"
    /\ map fst (js_properties (inputSchema t)) = ["query"]
    /\ map (fun p => ps_type (snd p)) (js_properties (inputSchema t))
       = ["string"]
    /\ js_required (inputSchema t) = ["query"].
Proof. eexists. repeat split. Qed.

(** C9: against a deterministic remote service, invoking the tool a
    second time with the same arguments gives the outcome of the first
    invocation; more generally the outcome is the same from every
    world. *)
Theorem call_tool_idempotent (name : string) (arguments : Arguments)
    (w : World Net) :
  deterministic transport ->
  fst (tool name arguments (snd (tool name arguments w)))
  = fst (tool name arguments w)
  /\ forall w' : World Net,
       fst (tool name arguments w') = fst (tool name arguments w).
Proof.
  intros Hdet.
  assert (forall w1 w2 : World Net,
             fst (tool name arguments w1) = fst (tool name arguments w2))
    as Hany.
  { intros w1 w2.
    destruct (lookup_arg "query" arguments) as [v |] eqn:Hq.
    - destruct v as [| b | z | m x | s | l | l];
        try (unfold call_tool, try_except, SearchArgs_init;
             rewrite or_empty_lookup, Hq; reflexivity).
      rewrite !(call_tool_valid_outcome _ _ _ _ Hq). cbn [fst].
      rewrite (Hdet (net w1) (net w2)). reflexivity.
    - unfold call_tool, try_except, SearchArgs_init.
      rewrite or_empty_lookup, Hq. reflexivity. }
  split; [apply Hany | intros w'; apply Hany].
Qed.

(** C10: neither the tool handler nor the prompt handler depends on the
    name it is invoked with. *)
Theorem handlers_ignore_name (n1 n2 : string) (arguments : Arguments)
    (w : World Net) :
  tool n1 arguments w = tool n2 arguments w
  /\ prompt n1 arguments w = prompt n2 arguments w.
Proof. split; reflexivity. Qed.

(** *** Further properties of the handlers *)

Local Abbreviation run_calls := (run transport py_str py_repr).
Local Abbreviation invoke_call := (invoke transport py_str py_repr).

Lemma search_outcome_McpError (reply : Reply) (e : PyExc) :
  search_outcome py_repr reply = Raises e -> is_McpError e = true.
Proof.
  unfold search_outcome, internal_error. destruct reply as [r | e0].
  - destruct ((400 <=? status_code r) && (status_code r <? 600));
      [intros [= <-]; reflexivity | discriminate].
  - intros [= <-]. reflexivity.
Qed.

(** The prompt handler on a mapping that binds [query], in terms of the
    reply of the transport. *)
Lemma get_prompt_outcome (name : string) (arguments : Arguments) (v : PyVal)
    (w : World Net) :
  lookup_arg "query" arguments = Some v ->
  prompt name arguments w
  = (match search_outcome py_repr
             (fst (transport (net w) (search_request v))) with
     | Returns result =>
         Returns {| gp_description := "Search results";
                    messages := [user_text result] |}
     | Raises e =>
         Returns {| gp_description := "Search failed";
                    messages := [user_text (py_str e)] |}
     end,
     search_world transport v w).
Proof.
  intros Hq. rewrite (get_prompt_present name arguments v w Hq).
  unfold try_except. rewrite search_run.
  destruct (search_outcome _ _) as [t | e] eqn:Ho; [reflexivity |].
  rewrite (search_outcome_McpError _ _ Ho). reflexivity.
Qed.

(** A mapping that does not bind [query] to a string is rejected by the
    tool handler before anything happens. *)
Lemma call_tool_invalid (name : string) (arguments : Arguments)
    (w : World Net) :
  (forall s, lookup_arg "query" arguments <> Some (PyStr s)) ->
  exists e : PyExc,
    is_ValueError e = true
    /\ tool name arguments w
       = (Raises (McpError {| code := INVALID_PARAMS;
                              message := py_str e |}), w).
Proof.
  intros Hq. unfold call_tool, try_except, SearchArgs_init.
  rewrite or_empty_lookup.
  destruct (lookup_arg "query" arguments) as [[| b | z | m x | s | l | l] |];
    try (eexists; split; [| reflexivity]; reflexivity).
  exfalso. apply (Hq s). reflexivity.
Qed.

Lemma call_tool_world (name : string) (arguments : Arguments)
    (w : World Net) :
  snd (tool name arguments w)
  = match lookup_arg "query" arguments with
    | Some (PyStr s) => search_world transport (PyStr s) w
    | _ => w
    end.
Proof.
  destruct (lookup_arg "query" arguments) as [v |] eqn:Hq.
  - destruct v as [| b | z | m x | s | l | l];
      try (destruct (call_tool_invalid name arguments w) as [e [_ ->]];
           [intros s'; rewrite Hq; discriminate | reflexivity]).
    rewrite (call_tool_valid_outcome _ _ _ _ Hq). reflexivity.
  - destruct (call_tool_invalid name arguments w) as [e [_ ->]];
      [intros s'; rewrite Hq; discriminate | reflexivity].
Qed.

Lemma get_prompt_world (name : string) (arguments : Arguments)
    (w : World Net) :
  snd (prompt name arguments w)
  = match lookup_arg "query" arguments with
    | Some v => search_world transport v w
    | None => w
    end.
Proof.
  destruct (lookup_arg "query" arguments) as [v |] eqn:Hq.
  - rewrite (get_prompt_outcome _ _ _ _ Hq). reflexivity.
  - rewrite (get_prompt_absent _ _ _ Hq). reflexivity.
Qed.

(** X1: listing the prompts never fails and changes nothing: it returns
    exactly one descriptor, with the name of the tool, whose arguments are
    the single required argument [query], the very field the input schema
    of the tool requires. *)
Theorem list_prompts_descriptor (w : World Net) :
  exists (p : Prompt) (t : Tool),
    list_prompts w = (Returns [p], w)
    /\ list_tools w = (Returns [t], w)
    /\ p_name p = t_name t
    /\ map pa_name (arguments p) = ["query"]
    /\ map pa_name (List.filter pa_required (arguments p))
       = js_required (inputSchema t).
Proof. do 2 eexists. repeat split. Qed.

(** X2: on a mapping that binds [query], when the remote service answers
    with a status that is neither a client or server error nor a redirect
    status, the prompt handler returns a result described as "Search
    results" whose single user message carries the body of the answer,
    unparsed. *)
Theorem get_prompt_success (name : string) (arguments : Arguments)
    (v : PyVal) (w : World Net) (r : Response) :
  lookup_arg "query" arguments = Some v ->
  fst (transport (net w) (search_request v)) = Answer r ->
  ~ 400 <= status_code r < 600 ->
  is_redirect_status (status_code r) = false ->
  prompt name arguments w
  = (Returns {| gp_description := "Search results";
                messages := [user_text (r_text r)] |},
     search_world transport v w).
Proof.
  intros Hq Hr Hs _. rewrite (get_prompt_outcome _ _ _ _ Hq), Hr.
  cbn [search_outcome].
  assert (((400 <=? status_code r) && (status_code r <? 600)) = false)
    as -> by lia.
  reflexivity.
Qed.

(** X3: when the reply to the request is not a response with a redirect
    status, the search function returns exactly when the reply is a
    response with a status outside 400..599, and then it returns the body
    of that response; it raises exactly when the transport raised or the
    status is in 400..599, and then the error is the Internal error built
    from that failure.  Either way one session was constructed and the
    request was sent. *)
Theorem search_outcome_characterised (q : PyVal) (w : World Net) :
  let reply := fst (transport (net w) (search_request q)) in
  final_reply reply ->
  (forall t : string,
      fst (search q w) = Returns t
      <-> exists r, reply = Answer r
                    /\ ~ 400 <= status_code r < 600 /\ t = r_text r)
  /\ (forall e : PyExc,
         fst (search q w) = Raises e
         <-> exists e0, fails reply e0 /\ e = internal_error py_repr e0)
  /\ snd (search q w) = search_world transport q w.
Proof.
  cbv zeta. intros _. rewrite search_run. cbn [fst snd].
  destruct (fst (transport (net w) (search_request q))) as [r | e0];
    cbn [search_outcome].
  - destruct ((400 <=? status_code r) && (status_code r <? 600)) eqn:Hs.
    + repeat split.
      * discriminate.
      * intros [r' [[= <-] [Hn _]]]. lia.
      * intros [= <-]. eexists. split; [apply fails_status; lia | reflexivity].
      * intros [e1 [Hf ->]]. inversion Hf; subst. reflexivity.
    + repeat split.
      * intros [= <-]. exists r. repeat split. lia.
      * intros [r' [[= <-] [_ ->]]]. reflexivity.
      * discriminate.
      * intros [e1 [Hf _]]. inversion Hf; subst. lia.
  - repeat split.
    + discriminate.
    + intros [r [Hr _]]. discriminate.
    + intros [= <-]. exists e0. split; [constructor | reflexivity].
    + intros [e1 [Hf ->]]. inversion Hf; subst. reflexivity.
Qed.

(** X4: whatever the mapping and the world, the tool handler either
    returns exactly one text item, or raises a protocol error with one of
    two codes: InvalidParameters, and then the world is untouched, or
    Internal, and then the request had been sent.  No other exception
    leaves the handler. *)
Theorem call_tool_outcome_shape (name : string) (arguments : Arguments)
    (w : World Net) :
  match fst (tool name arguments w) with
  | Returns items =>
      exists t : string, items = [ {| type_ := "text"; text := t |} ]
  | Raises e =>
      exists err : ErrorData,
        e = McpError err
        /\ ((code err = INVALID_PARAMS /\ snd (tool name arguments w) = w)
            \/ (code err = INTERNAL_ERROR
                /\ sends_request (tool name arguments) w = true))
  end.
Proof.
  destruct (lookup_arg "query" arguments) as [[| b | z | m x | s | l | l] |]
    eqn:Hq;
    try (destruct (call_tool_invalid name arguments w) as [e [_ He]];
         [intros s'; rewrite Hq; discriminate |];
         rewrite He; eexists; split; [reflexivity | left; split; reflexivity]).
  assert (new_events (tool name arguments) w
          = [NewSession (sessions w);
             Send (sessions w) (search_request (PyStr s))]) as Hev.
  { apply new_events_app. rewrite (call_tool_valid_outcome _ _ _ _ Hq).
    reflexivity. }
  unfold sends_request. rewrite Hev.
  rewrite (call_tool_valid_outcome _ _ _ _ Hq). cbn [fst].
  destruct (search_outcome _ _) as [t | e] eqn:Ho.
  - exists t. reflexivity.
  - revert Ho. unfold search_outcome, internal_error.
    destruct (fst (transport (net w) (search_request (PyStr s))))
      as [r | e0].
    + destruct ((400 <=? status_code r) && (status_code r <? 600));
        [| discriminate].
      intros [= <-]. eexists. split; [reflexivity |]. right.
      split; reflexivity.
    + intros [= <-]. eexists. split; [reflexivity |]. right.
      split; reflexivity.
Qed.

(** X5: the prompt handler raises nothing but the error "Query is
    required", and leaves the world untouched when it does; when it
    returns, the result has exactly one user message and is described as
    "Search results" or "Search failed". *)
Theorem get_prompt_outcome_shape (name : string) (arguments : Arguments)
    (w : World Net) :
  match fst (prompt name arguments w) with
  | Returns result =>
      exists t : string,
        messages result = [user_text t]
        /\ (gp_description result = "Search results"
            \/ gp_description result = "Search failed")
  | Raises e =>
      e = McpError {| code := INVALID_PARAMS;
                      message := "Query is required" |}
      /\ snd (prompt name arguments w) = w
  end.
Proof.
  destruct (lookup_arg "query" arguments) as [v |] eqn:Hq.
  - rewrite (get_prompt_outcome _ _ _ _ Hq). cbn [fst].
    destruct (search_outcome _ _) as [t | e]; eexists;
      (split; [reflexivity |]); [left | right]; reflexivity.
  - rewrite (get_prompt_absent _ _ _ Hq). split; reflexivity.
Qed.

(** X6: when the mapping has the key [query], further keys change
    nothing: whatever the value under [query], each handler behaves on the
    mapping as on the mapping that holds [query] alone.  The prompt
    handler puts that value into its request as it is; so does the tool
    handler when the value is a string, and it sends nothing otherwise. *)
Theorem handlers_ignore_other_keys (name : string) (d : gmap string PyVal)
    (v : PyVal) (w : World Net) :
  tool name (Some (<["query" := v]> d)) w
  = tool name (Some {["query" := v]}) w
  /\ prompt name (Some (<["query" := v]> d)) w
     = prompt name (Some {["query" := v]}) w
  /\ new_events (tool name (Some (<["query" := v]> d))) w
     = (if is_PyStr v
        then [NewSession (sessions w); Send (sessions w) (search_request v)]
        else [])
  /\ new_events (prompt name (Some (<["query" := v]> d))) w
     = [NewSession (sessions w); Send (sessions w) (search_request v)].
Proof.
  assert (lookup_arg "query" (Some (<["query" := v]> d)) = Some v) as Hl
    by apply lookup_insert_eq.
  assert (lookup_arg "query" (Some {["query" := v]}) = Some v) as Hl1
    by apply lookup_singleton_eq.
  split; [| split; [| split]].
  - unfold call_tool, try_except, SearchArgs_init.
    rewrite !or_empty_lookup, Hl, Hl1. reflexivity.
  - rewrite (get_prompt_outcome _ _ _ _ Hl).
    rewrite (get_prompt_outcome _ _ _ _ Hl1). reflexivity.
  - apply new_events_app. rewrite call_tool_world, Hl.
    destruct v; cbn [is_PyStr]; try (symmetry; apply app_nil_r).
    reflexivity.
  - apply new_events_app. rewrite (get_prompt_outcome _ _ _ _ Hl).
    reflexivity.
Qed.

(** X7: on a mapping whose [query] is a string the two handlers do the
    same to the world, and the prompt result mirrors the outcome of the
    tool: the items the tool returns are the content of the messages of a
    "Search results" result, and the error the tool raises is the one
    whose text the "Search failed" result carries. *)
Theorem prompt_mirrors_tool (n1 n2 : string) (arguments : Arguments)
    (s : string) (w : World Net) :
  lookup_arg "query" arguments = Some (PyStr s) ->
  snd (prompt n2 arguments w) = snd (tool n1 arguments w)
  /\ fst (prompt n2 arguments w)
     = match fst (tool n1 arguments w) with
       | Returns items =>
           Returns {| gp_description := "Search results";
                      messages :=
                        map (fun c => {| role := "user"; content := c |})
                            items |}
       | Raises e =>
           Returns {| gp_description := "Search failed";
                      messages := [user_text (py_str e)] |}
       end.
Proof.
  intros Hq. rewrite (get_prompt_outcome _ _ _ _ Hq).
  rewrite (call_tool_valid_outcome _ _ _ _ Hq). cbn [fst snd].
  split; [reflexivity |].
  destruct (search_outcome _ _); reflexivity.
Qed.

(** X8: on a mapping whose [query] is not a string the two handlers part:
    the tool handler rejects it with InvalidParameters and sends nothing,
    the prompt handler sends the request with that value and returns. *)
Theorem non_string_query_asymmetry (n1 n2 : string) (arguments : Arguments)
    (v : PyVal) (w : World Net) :
  lookup_arg "query" arguments = Some v ->
  is_PyStr v = false ->
  (exists msg : string,
      tool n1 arguments w
      = (Raises (McpError {| code := INVALID_PARAMS; message := msg |}), w))
  /\ new_events (prompt n2 arguments) w
     = [NewSession (sessions w); Send (sessions w) (search_request v)]
  /\ exists result, fst (prompt n2 arguments w) = Returns result.
Proof.
  intros Hq Hv. split; [| split].
  - destruct (call_tool_invalid n1 arguments w) as [e [_ He]].
    + intros s' Hs. rewrite Hq in Hs. injection Hs as ->. discriminate.
    + eexists. exact He.
  - apply new_events_app. rewrite (get_prompt_outcome _ _ _ _ Hq).
    reflexivity.
  - rewrite (get_prompt_outcome _ _ _ _ Hq). cbn [fst].
    destruct (search_outcome _ _); eexists; reflexivity.
Qed.

(** X9: against a deterministic remote service, when the service answers
    the request with a response whose status is not a redirect status
    (error statuses included), the prompt handler gives the same outcome
    from every world, in particular when it is invoked a second time. *)
Theorem get_prompt_idempotent (name : string) (arguments : Arguments)
    (v : PyVal) (w w' : World Net) (r : Response) :
  deterministic transport ->
  lookup_arg "query" arguments = Some v ->
  fst (transport (net w) (search_request v)) = Answer r ->
  is_redirect_status (status_code r) = false ->
  fst (prompt name arguments w') = fst (prompt name arguments w)
  /\ fst (prompt name arguments (snd (prompt name arguments w)))
     = fst (prompt name arguments w).
Proof.
  intros Hdet Hq _ _.
  assert (forall w1 w2 : World Net,
             fst (prompt name arguments w1) = fst (prompt name arguments w2))
    as Hany.
  { intros w1 w2. rewrite !(get_prompt_outcome _ _ _ _ Hq). cbn [fst].
    rewrite (Hdet (net w1) (net w2)). reflexivity. }
  split; apply Hany.
Qed.

(** What one invocation does to the world. *)
Lemma invoke_world (c : Call) (w : World Net) :
  invoke_call c w
  = match call_request c with
    | Some req =>
        {| net := snd (transport (net w) req);
           sessions := S (sessions w);
           trace := trace w ++ [NewSession (sessions w);
                                Send (sessions w) req] |}
    | None => w
    end.
Proof.
  destruct c as [| | name arguments | name arguments];
    cbn [invoke call_request]; try reflexivity.
  - rewrite call_tool_world.
    destruct (lookup_arg "query" arguments) as [[| b | z | m x | s | l | l] |];
      reflexivity.
  - rewrite get_prompt_world.
    destruct (lookup_arg "query" arguments); reflexivity.
Qed.

Lemma run_world (cs : list Call) (w : World Net) :
  trace (run_calls cs w)
  = (trace w ++ session_log (sessions w) (omap call_request cs))%list
  /\ sessions (run_calls cs w)
     = (sessions w + length (omap call_request cs))%nat.
Proof.
  revert w. induction cs as [| c cs IH]; intros w.
  - cbn. rewrite app_nil_r. split; [reflexivity | lia].
  - change (run_calls (c :: cs) w) with (run_calls cs (invoke_call c w)).
    destruct (IH (invoke_call c w)) as [-> ->].
    rewrite invoke_world. cbn [omap list_omap].
    destruct (call_request c) as [req |]; cbn [trace sessions].
    + rewrite <- app_assoc. cbn. split; [reflexivity | lia].
    + split; reflexivity.
Qed.

Lemma session_log_sends (i : nat) (reqs : list Request) :
  map event_session (List.filter is_Send (session_log i reqs))
  = seq i (length reqs)
  /\ map event_session (List.filter is_NewSession (session_log i reqs))
     = seq i (length reqs).
Proof.
  revert i. induction reqs as [| req reqs IH]; intros i; [split; reflexivity |].
  cbn. destruct (IH (S i)) as [-> ->]. split; reflexivity.
Qed.

(** X10: against a remote service that never answers with a redirect
    status, from process start, the trace after any sequence of handler
    invocations is fixed by the invocations alone, whatever else the
    service answered: one fresh session and one request for every tool
    invocation whose [query] is a string and for every prompt invocation
    that has a [query], in the order of the invocations, and nothing for
    the listings and the rejected invocations.  A failed remote call is
    not tried again. *)
Theorem run_trace (cs : list Call) (n0 : Net) :
  no_redirects transport ->
  trace (run_calls cs (process_start n0))
  = session_log 0 (omap call_request cs)
  /\ sessions (run_calls cs (process_start n0))
     = length (omap call_request cs).
Proof.
  intros _.
  destruct (run_world cs (process_start n0)) as [-> ->]. split; reflexivity.
Qed.

(** X11: against a remote service that never answers with a redirect
    status, from process start, after any sequence of handler invocations,
    the sessions constructed are numbered 0, 1, ... in order, and the
    requests were sent through the sessions 0, 1, ... in the same order:
    every session carries exactly one request and none is used twice. *)
Theorem run_one_request_per_session (cs : list Call) (n0 : Net) :
  no_redirects transport ->
  let w := run_calls cs (process_start n0) in
  map event_session (List.filter is_NewSession (trace w))
  = seq 0 (sessions w)
  /\ map event_session (List.filter is_Send (trace w)) = seq 0 (sessions w)
  /\ NoDup (map event_session (List.filter is_Send (trace w))).
Proof.
  intros _.
  cbv zeta. destruct (run_world cs (process_start n0)) as [-> ->].
  cbn [process_start trace sessions app Nat.add].
  destruct (session_log_sends 0 (omap call_request cs)) as [-> ->].
  repeat split. apply NoDup_seq.
Qed.

(** X12: against a remote service that never answers with a redirect
    status, from process start, every request the server ever sends is a
    GET of the fixed URL with a timeout of 30 and no retry budget, whose
    parameters are [query] and then [lang=en]. *)
Theorem run_requests_fixed (cs : list Call) (n0 : Net) :
  no_redirects transport ->
  Forall
    (fun ev =>
       match ev with
       | NewSession _ => True
       | Send _ req =>
           method req = "GET"
           /\ url req = PAYNOW_COMPONENT_DOCS_MCP_SERVER_API
           /\ timeout req = 30
           /\ retries req = 0
           /\ exists q : PyVal,
                params req = [("query", q); ("lang", PyStr "en")]
       end)
    (trace (run_calls cs (process_start n0))).
Proof.
  intros _.
  destruct (run_world cs (process_start n0)) as [-> _].
  cbn [process_start trace sessions app].
  generalize 0%nat as i.
  induction cs as [| c cs IH]; intros i; [constructor |].
  cbn [omap list_omap].
  destruct (call_request c) as [req |] eqn:Hc; [| apply IH].
  cbn [session_log]. constructor; [exact I |]. constructor; [| apply IH].
  destruct c as [| | name arguments | name arguments];
    cbn [call_request] in Hc; try discriminate.
  - destruct (lookup_arg "query" arguments)
      as [[| b | z | m x | s | l | l] |]; try discriminate.
    injection Hc as <-. repeat split. eexists. reflexivity.
  - destruct (lookup_arg "query" arguments) as [v |]; try discriminate.
    injection Hc as <-. repeat split. eexists. reflexivity.
Qed.

End Properties.

(** ** The properties on the sample world *)

(** C1, as stated, fails: with the empty string for [query] the tool
    handler does send its request, although the query is not a non-empty
    string. *)
Lemma call_tool_empty_query_counterexample :
  ~ (sends_request (Sample.tool Runs.tool_name Runs.empty_query) Sample.start
     = true ->
     exists s : string,
       lookup_arg "query" Runs.empty_query = Some (PyStr s) /\ s <> "").
Proof.
  intros H. destruct H as [s [Hs Hne]]; [vm_compute; reflexivity |].
  vm_compute in Hs. injection Hs as <-. apply Hne. reflexivity.
Qed.

(** C7, as stated, fails: two invocations of the tool construct two
    sessions, and each request goes through the session of its own
    invocation. *)
Lemma single_session_counterexample :
  let call := Sample.tool Runs.tool_name Runs.refund in
  let w2 := snd (call (snd (call Sample.start))) in
  trace w2
  = [NewSession 0; Send 0 (search_request (PyStr "refund policy"));
     NewSession 1; Send 1 (search_request (PyStr "refund policy"))]
  /\ ~ (length (List.filter is_NewSession (trace w2)) <= 1)%nat.
Proof.
  split; [vm_compute; reflexivity |].
  vm_compute. intros H. inversion H as [| n H1]. inversion H1.
Qed.

(** C2 on the sample world: the transport times out, the prompt handler
    returns "Search failed". *)
Lemma get_prompt_remote_failure_witness :
  Runs.unreachable !! "query" = Some (PyStr "x")
  /\ Sample.search (PyStr "x") Sample.start
     = (Raises (internal_error Sample.repr
                  (OtherException "ConnectTimeout" "timed out")),
        search_world Sample.transport (PyStr "x") Sample.start)
  /\ Sample.prompt Runs.tool_name (Some Runs.unreachable) Sample.start
     = (Returns
          {| gp_description := "Search failed";
             messages :=
               [ {| role := "user";
                    content :=
                      {| type_ := "text";
                         text := "Failed to search documentation: ConnectTimeout('timed out')" |} |} ] |},
        search_world Sample.transport (PyStr "x") Sample.start).
Proof.
  assert (Runs.unreachable !! "query" = Some (PyStr "x")) as Hq
    by (vm_compute; reflexivity).
  assert (Sample.search (PyStr "x") Sample.start
          = (Raises (internal_error Sample.repr
                       (OtherException "ConnectTimeout" "timed out")),
             search_world Sample.transport (PyStr "x") Sample.start)) as Hs
    by (vm_compute; reflexivity).
  split; [exact Hq | split; [exact Hs |]].
  exact (get_prompt_remote_failure Sample.transport Sample.str Sample.repr
           Runs.tool_name Runs.unreachable (PyStr "x") Sample.start _ _
           Hq Hs).
Defined.

(** C3, as stated, fails: "not modified" is no success status, and the
    tool handler returns the body of that response and raises nothing. *)
Lemma call_tool_not_modified_counterexample :
  fst (Sample.service (net Sample.start) (search_request (PyStr "docs")))
  = Answer Runs.not_modified
  /\ status_code Runs.not_modified = 304
  /\ fst (call_tool Sample.service Sample.str Sample.repr
            Runs.tool_name Runs.docs Sample.start)
     = Returns [ {| type_ := "text"; text := "" |} ]
  /\ ~ (~ 200 <= status_code Runs.not_modified < 300 ->
        exists msg : string,
          fst (call_tool Sample.service Sample.str Sample.repr
                 Runs.tool_name Runs.docs Sample.start)
          = Raises (McpError {| code := INTERNAL_ERROR; message := msg |})).
Proof.
  split; [vm_compute; reflexivity |].
  split; [reflexivity |].
  split; [vm_compute; reflexivity |].
  intros H. destruct H as [msg Hmsg]; [cbn; lia |].
  vm_compute in Hmsg. discriminate Hmsg.
Qed.

(** C3 on the sample world: the service answers 500, the tool handler
    raises the Internal error. *)
Lemma call_tool_remote_failure_witness :
  lookup_arg "query" Runs.boom = Some (PyStr "boom")
  /\ fails (fst (Sample.service (net Sample.start)
                   (search_request (PyStr "boom"))))
       (HTTPError (http_error_msg Runs.boom_error))
  /\ fst (call_tool Sample.service Sample.str Sample.repr
            Runs.tool_name Runs.boom Sample.start)
     = Raises (McpError
                 {| code := -32603;
                    message := "Failed to search documentation: HTTPError('500 Server Error: Internal Server Error for url: https://mcp.owlting.com/paynow-component-docs/get-paynow-component-documentation?query=boom&lang=en')" |}).
Proof.
  assert (lookup_arg "query" Runs.boom = Some (PyStr "boom")) as Hq
    by (vm_compute; reflexivity).
  assert (fails (fst (Sample.service (net Sample.start)
                        (search_request (PyStr "boom"))))
            (HTTPError (http_error_msg Runs.boom_error))) as Hf.
  { apply (fails_status Runs.boom_error). simpl. lia. }
  split; [exact Hq | split; [exact Hf |]].
  exact (call_tool_remote_failure Sample.service Sample.str Sample.repr
           Runs.tool_name Runs.boom "boom" Sample.start _ Hq Hf).
Defined.

(** C5 on the sample world: the service answers 200 with a body, the tool
    handler returns that body as its one text item. *)
Lemma call_tool_success_witness :
  lookup_arg "query" Runs.refund = Some (PyStr "refund policy")
  /\ fst (Sample.transport (net Sample.start)
            (search_request (PyStr "refund policy")))
     = Answer (Sample.ok (search_request (PyStr "refund policy"))
                 "Refund policy: ...")
  /\ 200 <= 200 < 300
  /\ fst (Sample.tool Runs.tool_name Runs.refund Sample.start)
     = Returns [ {| type_ := "text"; text := "Refund policy: ..." |} ].
Proof.
  assert (lookup_arg "query" Runs.refund = Some (PyStr "refund policy"))
    as Hq by (vm_compute; reflexivity).
  assert (fst (Sample.transport (net Sample.start)
                 (search_request (PyStr "refund policy")))
          = Answer (Sample.ok (search_request (PyStr "refund policy"))
                      "Refund policy: ...")) as Hr
    by reflexivity.
  assert (200 <= 200 < 300) as Hs by lia.
  split; [exact Hq | split; [exact Hr | split; [exact Hs |]]].
  exact (call_tool_success Sample.transport Sample.str Sample.repr
           Runs.tool_name Runs.refund "refund policy" Sample.start _
           Hq Hr Hs).
Defined.

(** C9 on the sample world: the sample service answers by the request
    alone, and the second invocation repeats the first. *)
Lemma call_tool_idempotent_witness :
  deterministic Sample.transport
  /\ fst (Sample.tool Runs.tool_name Runs.refund
            (snd (Sample.tool Runs.tool_name Runs.refund Sample.start)))
     = fst (Sample.tool Runs.tool_name Runs.refund Sample.start).
Proof.
  assert (deterministic Sample.transport) as Hdet
    by (intros n1 n2 req; reflexivity).
  split; [exact Hdet |].
  exact (proj1 (call_tool_idempotent Sample.transport Sample.str Sample.repr
                  Runs.tool_name Runs.refund Sample.start Hdet)).
Defined.


(** X2 on the sample world: the service answers 200 with a body, the
    prompt handler returns it under "Search results". *)
Lemma get_prompt_success_witness :
  lookup_arg "query" Runs.refund = Some (PyStr "refund policy")
  /\ fst (Sample.transport (net Sample.start)
            (search_request (PyStr "refund policy")))
     = Answer (Sample.ok (search_request (PyStr "refund policy"))
                 "Refund policy: ...")
  /\ ~ 400 <= 200 < 600
  /\ is_redirect_status 200 = false
  /\ Sample.prompt Runs.tool_name Runs.refund Sample.start
     = (Returns {| gp_description := "Search results";
                   messages := [user_text "Refund policy: ..."] |},
        search_world Sample.transport (PyStr "refund policy") Sample.start).
Proof.
  assert (lookup_arg "query" Runs.refund = Some (PyStr "refund policy"))
    as Hq by (vm_compute; reflexivity).
  assert (fst (Sample.transport (net Sample.start)
                 (search_request (PyStr "refund policy")))
          = Answer (Sample.ok (search_request (PyStr "refund policy"))
                      "Refund policy: ...")) as Hr
    by reflexivity.
  assert (~ 400 <= 200 < 600) as Hs by lia.
  assert (is_redirect_status 200 = false) as Hd by reflexivity.
  split; [exact Hq | split; [exact Hr | split; [exact Hs |]]].
  split; [exact Hd |].
  exact (get_prompt_success Sample.transport Sample.str Sample.repr
           Runs.tool_name Runs.refund (PyStr "refund policy") Sample.start _
           Hq Hr Hs Hd).
Defined.

(** X7 on the sample world: the service answers 500; the tool handler
    raises, and the prompt handler returns the text of that error. *)
Lemma prompt_mirrors_tool_witness :
  lookup_arg "query" Runs.boom = Some (PyStr "boom")
  /\ snd (Sample.prompt "p" Runs.boom Sample.start)
     = snd (Sample.tool "t" Runs.boom Sample.start)
  /\ fst (Sample.prompt "p" Runs.boom Sample.start)
     = match fst (Sample.tool "t" Runs.boom Sample.start) with
       | Returns items =>
           Returns {| gp_description := "Search results";
                      messages :=
                        map (fun c => {| role := "user"; content := c |})
                            items |}
       | Raises e =>
           Returns {| gp_description := "Search failed";
                      messages := [user_text (Sample.str e)] |}
       end.
Proof.
  assert (lookup_arg "query" Runs.boom = Some (PyStr "boom")) as Hq
    by (vm_compute; reflexivity).
  split; [exact Hq |].
  exact (prompt_mirrors_tool Sample.transport Sample.str Sample.repr
           "t" "p" Runs.boom "boom" Sample.start Hq).
Defined.

(** X8 on the sample world: an integer under [query] is rejected by the
    tool handler and sent by the prompt handler. *)
Lemma non_string_query_asymmetry_witness :
  lookup_arg "query" Runs.int_query = Some (PyInt 3)
  /\ is_PyStr (PyInt 3) = false
  /\ (exists msg : string,
         Sample.tool "t" Runs.int_query Sample.start
         = (Raises (McpError {| code := INVALID_PARAMS; message := msg |}),
            Sample.start))
  /\ new_events (Sample.prompt "p" Runs.int_query) Sample.start
     = [NewSession 0; Send 0 (search_request (PyInt 3))]
  /\ exists result,
       fst (Sample.prompt "p" Runs.int_query Sample.start) = Returns result.
Proof.
  assert (lookup_arg "query" Runs.int_query = Some (PyInt 3)) as Hq
    by (vm_compute; reflexivity).
  assert (is_PyStr (PyInt 3) = false) as Hv by reflexivity.
  split; [exact Hq | split; [exact Hv |]].
  exact (non_string_query_asymmetry Sample.transport Sample.str Sample.repr
           "t" "p" Runs.int_query (PyInt 3) Sample.start Hq Hv).
Defined.

(** X3 on the sample world: the reply "not modified" is final, and the
    search function returns its empty body. *)
Lemma search_outcome_characterised_witness :
  final_reply
    (fst (Sample.service (net Sample.start) (search_request (PyStr "docs"))))
  /\ (forall t : string,
         fst (search_paynow_component_documentation Sample.service
                Sample.repr (PyStr "docs") Sample.start) = Returns t
         <-> exists r,
               fst (Sample.service (net Sample.start)
                      (search_request (PyStr "docs"))) = Answer r
               /\ ~ 400 <= status_code r < 600 /\ t = r_text r)
  /\ fst (search_paynow_component_documentation Sample.service
            Sample.repr (PyStr "docs") Sample.start) = Returns "".
Proof.
  assert (final_reply
            (fst (Sample.service (net Sample.start)
                    (search_request (PyStr "docs"))))) as Hf
    by reflexivity.
  split; [exact Hf |].
  split; [| vm_compute; reflexivity].
  exact (proj1 (search_outcome_characterised Sample.service Sample.repr
                  (PyStr "docs") Sample.start Hf)).
Defined.

(** X9 on the sample world: the service answers 500 both times, and the
    prompt handler returns the same "Search failed" result. *)
Lemma get_prompt_idempotent_witness :
  deterministic Sample.service
  /\ lookup_arg "query" Runs.boom = Some (PyStr "boom")
  /\ fst (Sample.service (net Sample.start) (search_request (PyStr "boom")))
     = Answer Runs.boom_error
  /\ is_redirect_status (status_code Runs.boom_error) = false
  /\ fst (get_prompt Sample.service Sample.str Sample.repr Runs.tool_name
            Runs.boom
            (snd (get_prompt Sample.service Sample.str Sample.repr
                    Runs.tool_name Runs.boom Sample.start)))
     = fst (get_prompt Sample.service Sample.str Sample.repr Runs.tool_name
              Runs.boom Sample.start).
Proof.
  assert (deterministic Sample.service) as Hdet
    by (intros n1 n2 req; reflexivity).
  assert (lookup_arg "query" Runs.boom = Some (PyStr "boom")) as Hq
    by (vm_compute; reflexivity).
  assert (fst (Sample.service (net Sample.start)
                 (search_request (PyStr "boom")))
          = Answer Runs.boom_error) as Hr
    by (vm_compute; reflexivity).
  assert (is_redirect_status (status_code Runs.boom_error) = false) as Hd
    by reflexivity.
  split; [exact Hdet | split; [exact Hq | split; [exact Hr |]]].
  split; [exact Hd |].
  exact (proj2 (get_prompt_idempotent Sample.service Sample.str Sample.repr
                  Runs.tool_name Runs.boom (PyStr "boom") Sample.start
                  Sample.start Runs.boom_error Hdet Hq Hr Hd)).
Defined.

(** The first sample service answers 200, 404 or 500, or not at all. *)
Lemma sample_no_redirects : no_redirects Sample.transport.
Proof.
  intros n req. unfold Sample.transport, final_reply. cbn [fst].
  destruct (params req) as [| [k v] ps]; [reflexivity |].
  destruct v as [| b | z | m x | s | l | l]; try reflexivity.
  destruct (String.eqb s "x"); [exact I |].
  destruct (String.eqb s "boom"); reflexivity.
Defined.

(** X10 on the sample world: seven invocations, four of them accepted. *)
Lemma run_trace_witness :
  no_redirects Sample.transport
  /\ trace (run Sample.transport Sample.str Sample.repr Calls.mixed
              (process_start 0%nat))
     = [NewSession 0; Send 0 (search_request (PyInt 3));
        NewSession 1; Send 1 (search_request (PyStr "boom"));
        NewSession 2; Send 2 (search_request (PyStr "refund policy"))]
  /\ sessions (run Sample.transport Sample.str Sample.repr Calls.mixed
                 (process_start 0%nat)) = 3%nat.
Proof.
  split; [exact sample_no_redirects |].
  exact (run_trace Sample.transport Sample.str Sample.repr Calls.mixed 0%nat
           sample_no_redirects).
Defined.

(** X11 on the sample world. *)
Lemma run_one_request_per_session_witness :
  no_redirects Sample.transport
  /\ map event_session
       (List.filter is_Send
          (trace (run Sample.transport Sample.str Sample.repr Calls.mixed
                    (process_start 0%nat))))
     = [0; 1; 2]%nat.
Proof.
  split; [exact sample_no_redirects |].
  exact (proj1 (proj2 (run_one_request_per_session Sample.transport
                         Sample.str Sample.repr Calls.mixed 0%nat
                         sample_no_redirects))).
Defined.

(** X12 on the sample world. *)
Lemma run_requests_fixed_witness :
  no_redirects Sample.transport
  /\ Forall
       (fun ev =>
          match ev with
          | NewSession _ => True
          | Send _ req =>
              method req = "GET"
              /\ url req = PAYNOW_COMPONENT_DOCS_MCP_SERVER_API
              /\ timeout req = 30
              /\ retries req = 0
              /\ exists q : PyVal,
                   params req = [("query", q); ("lang", PyStr "en")]
          end)
       (trace (run Sample.transport Sample.str Sample.repr Calls.mixed
                 (process_start 0%nat))).
Proof.
  split; [exact sample_no_redirects |].
  exact (run_requests_fixed Sample.transport Sample.str Sample.repr
           Calls.mixed 0%nat sample_no_redirects).
Defined.
